(** * Cortex-M3/M4 exception handling: a shallow embedding of [exceptions.c]

    The development follows the layout of the C file:
    - the CFSR bit masks and the sentinel of [exceptions.h];
    - the System Control Block as a record of 32-bit registers, accessed
      through a small monad that logs every register read, register write
      and every call of the diagnostic sink [KernelPrintf];
    - [exceptionsInit] and [printExtraInfo] written in that monad;
    - the four naked trampolines as lists of Thumb-2 instructions run by a
      small interpreter.  *)

From Stdlib Require Import ZArith List String Ascii Bool Lia.
Import ListNotations.

Local Open Scope Z_scope.

(* ================================================================= *)
(** ** 32-bit values *)

Definition wrap32 (v : Z) : Z := v mod 2 ^ 32.

Definition is_u32 (v : Z) : Prop := 0 <= v < 2 ^ 32.

(** A C condition [if (x & MASK)]: true when the conjunction is non-zero. *)
Definition c_and (x mask : Z) : bool := negb (Z.land x mask =? 0).

(* ================================================================= *)
(** ** exceptions.h *)

Definition EXCEPTION_HANDLER_FIELD_IS_INVALID : Z := 0xDEADD0D0.

(** ARM Cortex CPU exception stack frame. *)
Record CortexExceptionCpuFrameType : Type := mkFrame {
  m_R0  : Z;
  m_R1  : Z;
  m_R2  : Z;
  m_R3  : Z;
  m_R12 : Z;
  m_LR  : Z;
  m_PC  : Z;
  m_PSR : Z
}.

Inductive exceptionType : Type :=
  | Hard_Fault
  | MemMang_Fault
  | Bus_Fault
  | Usage_Fault.

(* ================================================================= *)
(** ** CFSR status bits, as [exceptions.c] defines them *)

(** Usage fault status bits. *)
Definition SCB_CFSR_DIVBYZERO   : Z := Z.shiftl 1 25.
Definition SCB_CFSR_UNALIGNED   : Z := Z.shiftl 1 24.
Definition SCB_CFSR_UNDEFINSTR  : Z := Z.shiftl 1 16.

(** Bus fault status bits. *)
Definition SCB_CFSR_BFARVALID   : Z := Z.shiftl 1 15.
Definition SCB_CFSR_LSPERR      : Z := Z.shiftl 1 13.
Definition SCB_CFSR_STKERR      : Z := Z.shiftl 1 12.
Definition SCB_CFSR_UNSTKERR    : Z := Z.shiftl 1 11.
Definition SCB_CFSR_IMPRECISERR : Z := Z.shiftl 1 10.
Definition SCB_CFSR_PRECISERR   : Z := Z.shiftl 1 9.
Definition SCB_CFSR_IBUSERR     : Z := Z.shiftl 1 8.

(** Memory manager fault status bits. *)
Definition SCB_CFSR_MMARVALID   : Z := Z.shiftl 1 7.
Definition SCB_CFSR_MLSPERR     : Z := Z.shiftl 1 5.
Definition SCB_CFSR_MSTKERR     : Z := Z.shiftl 1 4.
Definition SCB_CFSR_MUNSTKERR   : Z := Z.shiftl 1 3.
Definition SCB_CFSR_DACCVIOL    : Z := Z.shiftl 1 1.
Definition SCB_CFSR_IACCVIOL    : Z := Z.shiftl 1 0.

(** Alignment trapping can be more problematic so option to avoid:
    the file defines [TRAP_DIVIDE_BY_ZERO_ONLY]. *)
Definition TRAP_DIVIDE_BY_ZERO_ONLY : bool := true.

(* ================================================================= *)
(** ** The System Control Block and the hardware monad *)

(** The registers of [SCB] that the file touches. *)
Inductive scb_reg : Type :=
  | CCR | SHCSR | CFSR | HFSR | MMFAR | BFAR.

Record SCB_Type : Type := mkSCB {
  scb_CCR   : Z;
  scb_SHCSR : Z;
  scb_CFSR  : Z;
  scb_HFSR  : Z;
  scb_MMFAR : Z;
  scb_BFAR  : Z
}.

Definition scb_get (r : scb_reg) (s : SCB_Type) : Z :=
  match r with
  | CCR   => scb_CCR s
  | SHCSR => scb_SHCSR s
  | CFSR  => scb_CFSR s
  | HFSR  => scb_HFSR s
  | MMFAR => scb_MMFAR s
  | BFAR  => scb_BFAR s
  end.

Definition scb_set (r : scb_reg) (v : Z) (s : SCB_Type) : SCB_Type :=
  match r with
  | CCR   => mkSCB v (scb_SHCSR s) (scb_CFSR s) (scb_HFSR s) (scb_MMFAR s) (scb_BFAR s)
  | SHCSR => mkSCB (scb_CCR s) v (scb_CFSR s) (scb_HFSR s) (scb_MMFAR s) (scb_BFAR s)
  | CFSR  => mkSCB (scb_CCR s) (scb_SHCSR s) v (scb_HFSR s) (scb_MMFAR s) (scb_BFAR s)
  | HFSR  => mkSCB (scb_CCR s) (scb_SHCSR s) (scb_CFSR s) v (scb_MMFAR s) (scb_BFAR s)
  | MMFAR => mkSCB (scb_CCR s) (scb_SHCSR s) (scb_CFSR s) (scb_HFSR s) v (scb_BFAR s)
  | BFAR  => mkSCB (scb_CCR s) (scb_SHCSR s) (scb_CFSR s) (scb_HFSR s) (scb_MMFAR s) v
  end.

(** Every register of the block holds a 32-bit value. *)
Definition wf_scb (s : SCB_Type) : Prop :=
  forall r, is_u32 (scb_get r s).

Definition scb_reg_eqb (a b : scb_reg) : bool :=
  match a, b with
  | CCR, CCR | SHCSR, SHCSR | CFSR, CFSR
  | HFSR, HFSR | MMFAR, MMFAR | BFAR, BFAR => true
  | _, _ => false
  end.

(** What the outside world sees of a run. *)
Inductive event : Type :=
  | Read   (r : scb_reg)
  | Write  (r : scb_reg) (v : Z)
  | Printf (fmt : string) (args : list Z)
  | Halt.

(** A computation reads and writes the block and appends to the log. *)
Definition HW (A : Type) : Type := SCB_Type -> A * SCB_Type * list event.

Definition ret {A} (a : A) : HW A := fun s => (a, s, []).

Definition bind {A B} (m : HW A) (f : A -> HW B) : HW B :=
  fun s =>
    let '(a, s1, t1) := m s in
    let '(b, s2, t2) := f a s1 in
    (b, s2, t1 ++ t2).

Declare Scope hw_scope.
Delimit Scope hw_scope with hw.
Notation "x <- m ;; k" := (bind m (fun x => k))
  (at level 61, m at next level, right associativity) : hw_scope.
Notation "m ;; k" := (bind m (fun _ => k))
  (at level 61, right associativity) : hw_scope.

(** [SCB->r] as an rvalue. *)
Definition scb_read (r : scb_reg) : HW Z :=
  fun s => (scb_get r s, s, [Read r]).

(** [SCB->r = v]: the register keeps the low 32 bits. *)
Definition scb_write (r : scb_reg) (v : Z) : HW unit :=
  fun s => (tt, scb_set r (wrap32 v) s, [Write r (wrap32 v)]).

(** [SCB->r |= mask]: one read, one write. *)
Definition scb_or_assign (r : scb_reg) (mask : Z) : HW unit :=
  (old <- scb_read r ;;
   scb_write r (Z.lor old mask))%hw.

(** The diagnostic sink; the call is recorded with its format and
    arguments. *)
Definition KernelPrintf (fmt : string) (args : list Z) : HW unit :=
  fun s => (tt, s, [Printf fmt args]).

Definition when (b : bool) (m : HW unit) : HW unit :=
  if b then m else ret tt.

(** Projections of a run. *)
Definition final_scb {A} (m : HW A) (s : SCB_Type) : SCB_Type := snd (fst (m s)).
Definition log_of {A} (m : HW A) (s : SCB_Type) : list event := snd (m s).

(* ================================================================= *)
(** ** Format strings *)

Definition CR : string := String "013" EmptyString.
Definition LF : string := String "010" EmptyString.
Definition CRLF : string := CR ++ LF.

Definition fmt_banner         : string := "**** EXCEPTION OCCURRED ****" ++ CRLF.
Definition fmt_type_usage     : string := "Type: Usage Fault" ++ CRLF.
Definition fmt_type_bus       : string := "Type: Bus Fault" ++ CRLF.
Definition fmt_type_hard      : string := "Type: Hard Fault" ++ CRLF.
Definition fmt_type_mem       : string := "Type: Memory Fault" ++ CRLF.

Definition reason_line (label : string) : string :=
  "Reason: " ++ label ++ CRLF ++ LF.

Definition fmt_r0_r1   : string := "R0=%x R1=%x" ++ CRLF.
Definition fmt_r2_r3   : string := "R2=%x R3=%x" ++ CRLF.
Definition fmt_r12_lr  : string := "R12=%x LR=%x" ++ CRLF.
Definition fmt_pc_psr  : string := "PC=%x PSR=%x" ++ CRLF.
Definition fmt_hfsr_cfsr : string := "HFSR=%x CFSR=%x" ++ CRLF.
Definition fmt_fault_address : string := "Fault address=%x" ++ CRLF.

(* ================================================================= *)
(** ** The device header *)

(** [exceptions.c] takes the enable masks of [SCB->CCR] and [SCB->SHCSR]
    from the device header ([stm32f413xx.h], which pulls in the CMSIS core
    header).  That header is not part of the repository, so the masks are
    parameters of the development. *)
Class DeviceHeader : Type := {
  SCB_CCR_UNALIGN_TRP_Msk     : Z;
  SCB_CCR_DIV_0_TRP_Msk       : Z;
  SCB_SHCSR_USGFAULTENA_Msk   : Z;
  SCB_SHCSR_BUSFAULTENA_Msk   : Z;
  SCB_SHCSR_MEMFAULTENA_Msk   : Z
}.

(** The masks are [unsigned long] constants of a 32-bit target. *)
Definition masks_u32 (dev : DeviceHeader) : Prop :=
  is_u32 SCB_CCR_UNALIGN_TRP_Msk /\
  is_u32 SCB_CCR_DIV_0_TRP_Msk /\
  is_u32 SCB_SHCSR_USGFAULTENA_Msk /\
  is_u32 SCB_SHCSR_BUSFAULTENA_Msk /\
  is_u32 SCB_SHCSR_MEMFAULTENA_Msk.

(** The bit positions of the ARMv7-M architecture (CCR.UNALIGN_TRP is bit 3,
    CCR.DIV_0_TRP bit 4, SHCSR.MEMFAULTENA bit 16, BUSFAULTENA bit 17,
    USGFAULTENA bit 18); used to instantiate the general statements. *)
Definition armv7m_header : DeviceHeader := {|
  SCB_CCR_UNALIGN_TRP_Msk   := Z.shiftl 1 3;
  SCB_CCR_DIV_0_TRP_Msk     := Z.shiftl 1 4;
  SCB_SHCSR_USGFAULTENA_Msk := Z.shiftl 1 18;
  SCB_SHCSR_BUSFAULTENA_Msk := Z.shiftl 1 17;
  SCB_SHCSR_MEMFAULTENA_Msk := Z.shiftl 1 16
|}.

(* ================================================================= *)
(** ** exceptionsInit *)

Section Init.
Context {dev : DeviceHeader}.

(** The mask or-ed into [SCB->CCR], by the compile-time option. *)
Definition ccr_enable_mask (div0_only : bool) : Z :=
  if div0_only
  then SCB_CCR_DIV_0_TRP_Msk
  else Z.lor SCB_CCR_UNALIGN_TRP_Msk SCB_CCR_DIV_0_TRP_Msk.

(** The mask or-ed into [SCB->SHCSR]. *)
Definition shcsr_enable_mask : Z :=
  Z.lor (Z.lor SCB_SHCSR_USGFAULTENA_Msk SCB_SHCSR_BUSFAULTENA_Msk)
        SCB_SHCSR_MEMFAULTENA_Msk.

Definition exceptionsInit : HW unit :=
  (scb_or_assign CCR (ccr_enable_mask TRAP_DIVIDE_BY_ZERO_ONLY) ;;
   scb_or_assign SHCSR shcsr_enable_mask)%hw.
End Init.

(* ================================================================= *)
(** ** printExtraInfo *)

Definition printExtraInfo (aFrame : CortexExceptionCpuFrameType)
                          (eType : exceptionType) : HW unit :=
  (cfsr <- scb_read CFSR ;;
   let hfsr := EXCEPTION_HANDLER_FIELD_IS_INVALID in
   let faultAdd := EXCEPTION_HANDLER_FIELD_IS_INVALID in
   KernelPrintf fmt_banner [] ;;
   (* Print out the exception type and reason *)
   locals <-
     match eType with
     | Usage_Fault =>
         KernelPrintf fmt_type_usage [] ;;
         (if c_and cfsr SCB_CFSR_DIVBYZERO then
            KernelPrintf (reason_line "Division by zero") []
          else if c_and cfsr SCB_CFSR_UNALIGNED then
            KernelPrintf (reason_line "Misaligned data access") []
          else if c_and cfsr SCB_CFSR_UNDEFINSTR then
            KernelPrintf (reason_line "Undefined instruction") []
          else
            KernelPrintf (reason_line "Unknown") []) ;;
         ret (hfsr, faultAdd)
     | Bus_Fault =>
         KernelPrintf fmt_type_bus [] ;;
         (if c_and cfsr SCB_CFSR_IBUSERR then
            KernelPrintf (reason_line "Invalid code address") []
          else if c_and cfsr (Z.lor SCB_CFSR_PRECISERR SCB_CFSR_IMPRECISERR) then
            KernelPrintf (reason_line "Invalid data address") []
          else if c_and cfsr (Z.lor SCB_CFSR_STKERR SCB_CFSR_UNSTKERR) then
            KernelPrintf (reason_line "Exception stack fault") []
          else if c_and cfsr SCB_CFSR_LSPERR then
            KernelPrintf (reason_line "Floating point fault") []
          else
            KernelPrintf (reason_line "Unknown") []) ;;
         (* Check bus fault address valid flag *)
         faultAdd <- (if c_and cfsr SCB_CFSR_BFARVALID
                      then scb_read BFAR
                      else ret faultAdd) ;;
         ret (hfsr, faultAdd)
     | Hard_Fault =>
         KernelPrintf fmt_type_hard [] ;;
         KernelPrintf (reason_line "Unknown") [] ;;
         hfsr <- scb_read HFSR ;;
         ret (hfsr, faultAdd)
     | MemMang_Fault =>
         KernelPrintf fmt_type_mem [] ;;
         (if c_and cfsr SCB_CFSR_IACCVIOL then
            KernelPrintf (reason_line "Invalid code address") []
          else if c_and cfsr SCB_CFSR_DACCVIOL then
            KernelPrintf (reason_line "Invalid data address") []
          else if c_and cfsr (Z.lor SCB_CFSR_MSTKERR SCB_CFSR_MUNSTKERR) then
            KernelPrintf (reason_line "Exception stack fault") []
          else if c_and cfsr SCB_CFSR_LSPERR then
            KernelPrintf (reason_line "Floating point fault") []
          else
            KernelPrintf (reason_line "Unknown") []) ;;
         (* Check mem manager fault address valid flag *)
         faultAdd <- (if c_and cfsr SCB_CFSR_MMARVALID
                      then scb_read MMFAR
                      else ret faultAdd) ;;
         ret (hfsr, faultAdd)
     end ;;
   let hfsr := fst locals in
   let faultAdd := snd locals in
   (* Print registers *)
   KernelPrintf fmt_r0_r1  [m_R0 aFrame;  m_R1 aFrame] ;;
   KernelPrintf fmt_r2_r3  [m_R2 aFrame;  m_R3 aFrame] ;;
   KernelPrintf fmt_r12_lr [m_R12 aFrame; m_LR aFrame] ;;
   KernelPrintf fmt_pc_psr [m_PC aFrame;  m_PSR aFrame] ;;
   (* Print fault info *)
   KernelPrintf fmt_hfsr_cfsr [hfsr; cfsr] ;;
   KernelPrintf fmt_fault_address [faultAdd])%hw.

(* ================================================================= *)
(** ** The fault handlers *)

(** [__asm__("BKPT")]: execution stops at the breakpoint. *)
Definition BKPT : HW unit := fun s => (tt, s, [Halt]).

Section Handlers.
(** Whether the build defines [__DEBUG_KERNEL__]. *)
Variable DEBUG_KERNEL : bool.

Definition fault_handler (eType : exceptionType)
                         (aFrame : CortexExceptionCpuFrameType) : HW unit :=
  (when DEBUG_KERNEL (printExtraInfo aFrame eType) ;;
   BKPT)%hw.

Definition hardFault    := fault_handler Hard_Fault.
Definition memMangFault := fault_handler MemMang_Fault.
Definition busFault     := fault_handler Bus_Fault.
Definition usageFault   := fault_handler Usage_Fault.
End Handlers.

(* ================================================================= *)
(** ** The low level fault handlers *)

(** The trampolines are [naked] functions made of Thumb-2 instructions only.
    They are embedded as instruction lists and run by the interpreter below,
    which covers the instructions the file uses. *)
Module Thumb.

(** Core registers named by the trampolines. *)
Inductive gpr : Type := R0 | R1 | LR.

(** Special registers reached by [mrs] and [msr]. *)
Inductive spr : Type := MSP | PSP | PRIMASK | FAULTMASK.

Inductive cond : Type := EQ | NE.

(** The C functions whose addresses the literal pool holds. *)
Inductive symbol : Type :=
  | sym_hardFault | sym_memMangFault | sym_busFault | sym_usageFault.

Inductive opcode : Type :=
  | tst (rn : gpr) (imm : Z)         (* tst rn, #imm  *)
  | ite (c : cond)                   (* ite c         *)
  | mrs (rd : gpr) (sp : spr)        (* mrs rd, sp    *)
  | mov (rd : gpr) (imm : Z)         (* mov rd, #imm  *)
  | msr (sp : spr) (rn : gpr)        (* msr sp, rn    *)
  | ldr_lit (rd : gpr) (s : symbol)  (* ldr rd, =s    *)
  | bx (rm : gpr).                   (* bx rm         *)

(** An instruction is an opcode with its condition suffix, if any. *)
Record instr : Type := mkInstr {
  suffix : option cond;
  op     : opcode
}.

(** [al o] is plain [o]; [on c o] is [o] with suffix [c]. *)
Definition al (o : opcode) : instr := mkInstr None o.
Definition on (c : cond) (o : opcode) : instr := mkInstr (Some c) o.

Record cpu : Type := mkCpu {
  r0 : Z;
  r1 : Z;
  lr : Z;
  msp : Z;
  psp : Z;
  primask : Z;
  faultmask : Z;
  flagN : bool;
  flagZ : bool;
  itstate : list cond      (* conditions of the instructions still in the IT block *)
}.

Definition get_gpr (r : gpr) (s : cpu) : Z :=
  match r with
  | R0 => r0 s
  | R1 => r1 s
  | LR => lr s
  end.

Definition set_gpr (r : gpr) (v : Z) (s : cpu) : cpu :=
  match r with
  | R0 => mkCpu v (r1 s) (lr s) (msp s) (psp s) (primask s) (faultmask s)
                (flagN s) (flagZ s) (itstate s)
  | R1 => mkCpu (r0 s) v (lr s) (msp s) (psp s) (primask s) (faultmask s)
                (flagN s) (flagZ s) (itstate s)
  | LR => mkCpu (r0 s) (r1 s) v (msp s) (psp s) (primask s) (faultmask s)
                (flagN s) (flagZ s) (itstate s)
  end.

Definition get_spr (r : spr) (s : cpu) : Z :=
  match r with
  | MSP => msp s
  | PSP => psp s
  | PRIMASK => primask s
  | FAULTMASK => faultmask s
  end.

(** The trampolines run in handler mode, which is privileged, so a write
    to a special register takes effect.  The mask registers are one bit
    wide: they take bit 0 of the source register.  (The architecture drops
    a write to FAULTMASK made at execution priority -1 or above, that is
    inside HardFault; a HardFault is only entered with FAULTMASK clear, so
    the bit written by the trampolines, 0, is the bit found there either
    way.) *)
Definition set_spr (r : spr) (v : Z) (s : cpu) : cpu :=
  match r with
  | MSP => mkCpu (r0 s) (r1 s) (lr s) v (psp s) (primask s) (faultmask s)
                 (flagN s) (flagZ s) (itstate s)
  | PSP => mkCpu (r0 s) (r1 s) (lr s) (msp s) v (primask s) (faultmask s)
                 (flagN s) (flagZ s) (itstate s)
  | PRIMASK => mkCpu (r0 s) (r1 s) (lr s) (msp s) (psp s) (Z.land v 1) (faultmask s)
                 (flagN s) (flagZ s) (itstate s)
  | FAULTMASK => mkCpu (r0 s) (r1 s) (lr s) (msp s) (psp s) (primask s) (Z.land v 1)
                 (flagN s) (flagZ s) (itstate s)
  end.

Definition set_flags (n z : bool) (s : cpu) : cpu :=
  mkCpu (r0 s) (r1 s) (lr s) (msp s) (psp s) (primask s) (faultmask s)
        n z (itstate s).

Definition set_itstate (it : list cond) (s : cpu) : cpu :=
  mkCpu (r0 s) (r1 s) (lr s) (msp s) (psp s) (primask s) (faultmask s)
        (flagN s) (flagZ s) it.

Definition negate (c : cond) : cond :=
  match c with EQ => NE | NE => EQ end.

Definition cond_eqb (a b : cond) : bool :=
  match a, b with
  | EQ, EQ | NE, NE => true
  | _, _ => false
  end.

Definition cond_holds (c : cond) (s : cpu) : bool :=
  match c with
  | EQ => flagZ s
  | NE => negb (flagZ s)
  end.

Section Run.
(** Where the linker put each handler. *)
Variable address_of : symbol -> Z.

Inductive outcome : Type :=
  | Next (s : cpu)                 (* fall through to the next instruction *)
  | Branch (target : Z) (s : cpu)  (* control leaves the trampoline *)
  | Rejected.                      (* not a valid instruction stream *)

(** The effect of an opcode whose condition passed. *)
Definition exec_op (o : opcode) (s : cpu) : outcome :=
  match o with
  | tst rn imm =>
      let result := Z.land (get_gpr rn s) imm in
      Next (set_flags (Z.testbit result 31) (result =? 0) s)
  | ite c => Next (set_itstate [c; negate c] s)
  | mrs rd sp => Next (set_gpr rd (get_spr sp s) s)
  | mov rd imm => Next (set_gpr rd (wrap32 imm) s)
  | msr sp rn => Next (set_spr sp (get_gpr rn s) s)
  | ldr_lit rd sym => Next (set_gpr rd (address_of sym) s)
  | bx rm => Branch (get_gpr rm s) s
  end.

(** One instruction.  Inside an IT block the condition comes from the IT
    state and the suffix has to agree with it; outside, an instruction
    carries no suffix and always executes. *)
Definition step (i : instr) (s : cpu) : outcome :=
  match itstate s, suffix i with
  | [], None => exec_op (op i) s
  | c :: rest, Some c' =>
      if cond_eqb c c' then
        let s' := set_itstate rest s in
        if cond_holds c s then exec_op (op i) s' else Next s'
      else Rejected
  | _, _ => Rejected
  end.

(** Runs a trampoline up to the branch that leaves it.  A naked function
    has no epilogue: running off its end is not a defined outcome. *)
Fixpoint run (prog : list instr) (s : cpu) : option (Z * cpu) :=
  match prog with
  | [] => None
  | i :: rest =>
      match step i s with
      | Next s' => run rest s'
      | Branch target s' => Some (target, s')
      | Rejected => None
      end
  end.
End Run.

Definition HardFault_Handler : list instr :=
  [ al (tst LR 4);                 (* Check the exception return behaviour (EXC_RETURN) *)
    al (ite EQ);
    on EQ (mrs R0 MSP);            (* Bit 2 is low - MSP stack. *)
    on NE (mrs R0 PSP);            (* Bit 2 is high - PSP stack. *)
    al (mov R1 0);
    al (msr PRIMASK R1);           (* Disable all interrupts... *)
    al (msr FAULTMASK R1);         (* ... and subsequent faults. *)
    al (ldr_lit R1 sym_hardFault);
    al (bx R1) ].                  (* Call the real handler. *)

Definition MemManage_Handler : list instr :=
  [ al (tst LR 4);
    al (ite EQ);
    on EQ (mrs R0 MSP);
    on NE (mrs R0 PSP);
    al (mov R1 0);
    al (msr PRIMASK R1);
    al (msr FAULTMASK R1);
    al (ldr_lit R1 sym_memMangFault);
    al (bx R1) ].

Definition BusFault_Handler : list instr :=
  [ al (tst LR 4);
    al (ite EQ);
    on EQ (mrs R0 MSP);
    on NE (mrs R0 PSP);
    al (mov R1 0);
    al (msr PRIMASK R1);
    al (msr FAULTMASK R1);
    al (ldr_lit R1 sym_busFault);
    al (bx R1) ].

Definition UsageFault_Handler : list instr :=
  [ al (tst LR 4);
    al (ite EQ);
    on EQ (mrs R0 MSP);
    on NE (mrs R0 PSP);
    al (mov R1 0);
    al (msr PRIMASK R1);
    al (msr FAULTMASK R1);
    al (ldr_lit R1 sym_usageFault);
    al (bx R1) ].

(** The vector of each fault kind, and the C handler it is meant to
    reach. *)
Definition vector (k : exceptionType) : list instr :=
  match k with
  | Hard_Fault    => HardFault_Handler
  | MemMang_Fault => MemManage_Handler
  | Bus_Fault     => BusFault_Handler
  | Usage_Fault   => UsageFault_Handler
  end.

Definition handler_symbol (k : exceptionType) : symbol :=
  match k with
  | Hard_Fault    => sym_hardFault
  | MemMang_Fault => sym_memMangFault
  | Bus_Fault     => sym_busFault
  | Usage_Fault   => sym_usageFault
  end.

(** The instruction sequence the four trampolines share, up to the handler
    whose address they load. *)
Definition shape (h : symbol) : list instr :=
  [ al (tst LR 4); al (ite EQ); on EQ (mrs R0 MSP); on NE (mrs R0 PSP);
    al (mov R1 0); al (msr PRIMASK R1); al (msr FAULTMASK R1);
    al (ldr_lit R1 h); al (bx R1) ].

(** The processor state at exception entry: hardware has cleared the IT
    state before the first instruction of the handler. *)
Definition at_entry (s : cpu) : Prop := itstate s = [].

End Thumb.

(* ================================================================= *)
(** ** Observations on a log *)

(** The format strings of the ["Reason:"] lines, in the order printed. *)
Fixpoint reason_lines (log : list event) : list string :=
  match log with
  | [] => []
  | Printf fmt _ :: rest =>
      if String.prefix "Reason:" fmt
      then fmt :: reason_lines rest
      else reason_lines rest
  | _ :: rest => reason_lines rest
  end.

(** The format strings of the ["Type:"] lines, in the order printed. *)
Fixpoint type_lines (log : list event) : list string :=
  match log with
  | [] => []
  | Printf fmt _ :: rest =>
      if String.prefix "Type:" fmt
      then fmt :: type_lines rest
      else type_lines rest
  | _ :: rest => type_lines rest
  end.

(** The argument lists of the calls that print with format [fmt]. *)
Fixpoint printed_with (fmt : string) (log : list event) : list (list Z) :=
  match log with
  | [] => []
  | Printf f args :: rest =>
      if String.eqb f fmt
      then args :: printed_with fmt rest
      else printed_with fmt rest
  | _ :: rest => printed_with fmt rest
  end.

(** The registers read, in order. *)
Fixpoint reads_of (log : list event) : list scb_reg :=
  match log with
  | [] => []
  | Read r :: rest => r :: reads_of rest
  | _ :: rest => reads_of rest
  end.

(** The registers written, with the values stored, in order. *)
Fixpoint writes_of (log : list event) : list (scb_reg * Z) :=
  match log with
  | [] => []
  | Write r v :: rest => (r, v) :: writes_of rest
  | _ :: rest => writes_of rest
  end.

Definition is_read (r : scb_reg) (log : list event) : bool :=
  existsb (scb_reg_eqb r) (reads_of log).

(* ================================================================= *)
(** ** The decode tables of the specification *)

(** A rule names the status bits that select it (any of them) and its cause
    label; a table is tried in order, the first rule that matches wins, and
    ["Unknown"] is the default. *)
Definition spec_DecodeRule : Type := list Z * string.

Definition spec_rule_matches (status : Z) (rule : spec_DecodeRule) : bool :=
  existsb (Z.testbit status) (fst rule).

Fixpoint spec_first_match (rules : list spec_DecodeRule) (status : Z) : string :=
  match rules with
  | [] => "Unknown"
  | rule :: rest =>
      if spec_rule_matches status rule
      then snd rule
      else spec_first_match rest status
  end.

(** UsageFault: divide-by-zero > unaligned access > undefined instruction. *)
Definition spec_usage_rules : list spec_DecodeRule :=
  [ ([25], "Division by zero"%string);
    ([24], "Misaligned data access"%string);
    ([16], "Undefined instruction"%string) ].

(** BusFault: instruction-bus error > precise or imprecise data-bus error >
    stacking or unstacking error > floating-point lazy-state error. *)
Definition spec_bus_rules : list spec_DecodeRule :=
  [ ([8],      "Invalid code address"%string);
    ([9; 10],  "Invalid data address"%string);
    ([12; 11], "Exception stack fault"%string);
    ([13],     "Floating point fault"%string) ].

(** MemManageFault: instruction-access violation > data-access violation >
    stacking or unstacking error > the MemManage lazy-state error (MLSPERR,
    bit 5). *)
Definition spec_memmanage_rules : list spec_DecodeRule :=
  [ ([0],    "Invalid code address"%string);
    ([1],    "Invalid data address"%string);
    ([4; 3], "Exception stack fault"%string);
    ([5],    "Floating point fault"%string) ].

(** The table the MemManage branch of [printExtraInfo] realises: its last
    rule tests bit 13. *)
Definition code_memmanage_rules : list spec_DecodeRule :=
  [ ([0],    "Invalid code address"%string);
    ([1],    "Invalid data address"%string);
    ([4; 3], "Exception stack fault"%string);
    ([13],   "Floating point fault"%string) ].

(* ================================================================= *)
(** ** The two builds of exceptionsInit *)

Section InitOptions.
Context {dev : DeviceHeader}.

(** [exceptionsInit] as the preprocessor leaves it with
    [TRAP_DIVIDE_BY_ZERO_ONLY] defined ([true], the build of the file) or
    not defined ([false], division by zero and alignment trapping). *)
Definition exceptionsInit_build (div0_only : bool) : HW unit :=
  (scb_or_assign CCR (ccr_enable_mask div0_only) ;;
   scb_or_assign SHCSR shcsr_enable_mask)%hw.
End InitOptions.

(* ================================================================= *)
(** ** The status bits of each fault kind *)

(** The masks [exceptions.c] lists under "Usage fault status bits". *)
Definition usage_status_bits : Z :=
  Z.lor SCB_CFSR_DIVBYZERO (Z.lor SCB_CFSR_UNALIGNED SCB_CFSR_UNDEFINSTR).

(** The masks it lists under "Bus fault status bits". *)
Definition bus_status_bits : Z :=
  Z.lor SCB_CFSR_BFARVALID
    (Z.lor SCB_CFSR_LSPERR
       (Z.lor SCB_CFSR_STKERR
          (Z.lor SCB_CFSR_UNSTKERR
             (Z.lor SCB_CFSR_IMPRECISERR
                (Z.lor SCB_CFSR_PRECISERR SCB_CFSR_IBUSERR))))).

(* ================================================================= *)
(** ** From the vector to the report *)

(** The format strings of all the lines printed, in order. *)
Fixpoint format_lines (log : list event) : list string :=
  match log with
  | [] => []
  | Printf fmt _ :: rest => fmt :: format_lines rest
  | _ :: rest => format_lines rest
  end.

(** What a handler sees through its pointer argument: the eight 32-bit
    members of [CortexExceptionCpuFrameType], one after the other;
    [mem a] is the word stored at byte address [a]. *)
Definition frame_at (mem : Z -> Z) (p : Z) : CortexExceptionCpuFrameType :=
  mkFrame (mem p) (mem (p + 4)) (mem (p + 8)) (mem (p + 12))
          (mem (p + 16)) (mem (p + 20)) (mem (p + 24)) (mem (p + 28)).

Definition fault_kinds : list exceptionType :=
  [Hard_Fault; MemMang_Fault; Bus_Fault; Usage_Fault].

Section Dispatch.
Variable address_of : Thumb.symbol -> Z.
Variable DEBUG_KERNEL : bool.

(** The C handler that lives at a branch target, if any. *)
Definition handler_at (target : Z) : option exceptionType :=
  find (fun k => address_of (Thumb.handler_symbol k) =? target) fault_kinds.

(** An exception of kind [k] is taken: its trampoline runs, and the C
    function it branches to is called with [r0] as its argument (the
    procedure call standard passes the first argument there).  [None] when
    the trampoline does not reach one of the four handlers. *)
Definition take_exception (mem : Z -> Z) (k : exceptionType)
                          (s : Thumb.cpu) : option (HW unit) :=
  match Thumb.run address_of (Thumb.vector k) s with
  | Some (target, s') =>
      match handler_at target with
      | Some k' => Some (fault_handler DEBUG_KERNEL k' (frame_at mem (Thumb.r0 s')))
      | None => None
      end
  | None => None
  end.
End Dispatch.

(** The linker gives the four handlers addresses of their own. *)
Definition distinct_addresses (address_of : Thumb.symbol -> Z) : Prop :=
  forall a b, address_of a = address_of b -> a = b.

(* ================================================================= *)
(** ** Sample inputs *)

(** A fixed frame and register block for the instances below. *)
Definition sample_frame : CortexExceptionCpuFrameType :=
  mkFrame 0 1 2 3 12 0xFFFFFFF9 0x08000400 0x01000000.

Definition scb_with_status (cfsr : Z) : SCB_Type :=
  mkSCB 0 0 cfsr 0x40000000 0x20001000 0xCCCCCCCC.

Definition sample_scb : SCB_Type :=
  mkSCB 0x00000200 0x00000001 0 0 0 0.

Definition sample_addresses (h : Thumb.symbol) : Z :=
  match h with
  | Thumb.sym_hardFault    => 0x08000401
  | Thumb.sym_memMangFault => 0x08000421
  | Thumb.sym_busFault     => 0x08000441
  | Thumb.sym_usageFault   => 0x08000461
  end.

(** Entry from thread mode on the process stack, with interrupts masked by
    the faulting code. *)
Definition sample_entry : Thumb.cpu :=
  Thumb.mkCpu 0 0 0xFFFFFFFD 0x20020000 0x20010000 1 0 false false [].

(** A memory whose word at address [a] is [a] itself. *)
Definition sample_memory (a : Z) : Z := a.

(** A register block that [exceptionsInit] has already configured. *)
Definition configured_scb : SCB_Type :=
  mkSCB 0x00000210 0x00070001 0x02000000 0 0 0.

(* ================================================================= *)
(** ** Bit-level facts *)

Lemma c_and_bit (x n : Z) :
  0 <= n -> c_and x (Z.shiftl 1 n) = Z.testbit x n.
Proof.
  intros Hn. unfold c_and.
  rewrite Z.shiftl_1_l.
  destruct (Z.testbit x n) eqn:Hb.
  - apply negb_true_iff, Z.eqb_neq. intro H0.
    assert (Hc : Z.testbit (Z.land x (2 ^ n)) n = true).
    { rewrite Z.land_spec, Hb, Z.pow2_bits_true by lia. reflexivity. }
    rewrite H0, Z.bits_0 in Hc. discriminate.
  - apply negb_false_iff, Z.eqb_eq.
    apply Z.bits_inj'. intros i Hi.
    rewrite Z.land_spec, Z.bits_0.
    destruct (Z.eq_dec i n) as [->|Hne].
    + rewrite Hb. reflexivity.
    + rewrite Z.pow2_bits_false by lia. apply andb_false_r.
Qed.

Lemma c_and_lor (x a b : Z) :
  c_and x (Z.lor a b) = c_and x a || c_and x b.
Proof.
  unfold c_and. rewrite Z.land_lor_distr_r.
  destruct (Z.land x a =? 0) eqn:Ha; destruct (Z.land x b =? 0) eqn:Hb; cbn;
    rewrite ?Z.eqb_eq, ?Z.eqb_neq in *.
  - apply negb_false_iff, Z.eqb_eq. rewrite Ha, Hb. reflexivity.
  - apply negb_true_iff, Z.eqb_neq. intro H. apply Z.lor_eq_0_iff in H. tauto.
  - apply negb_true_iff, Z.eqb_neq. intro H. apply Z.lor_eq_0_iff in H. tauto.
  - apply negb_true_iff, Z.eqb_neq. intro H. apply Z.lor_eq_0_iff in H. tauto.
Qed.

(** Exposes the log of a run of [printExtraInfo], leaving the C conditions
    folded. *)
Ltac run_print :=
  cbv [log_of final_scb printExtraInfo bind scb_read scb_get KernelPrintf ret
       fst snd app].

(** Turns every C condition on a status mask into tests of single bits. *)
Ltac status_bits :=
  rewrite ?c_and_lor;
  unfold SCB_CFSR_DIVBYZERO, SCB_CFSR_UNALIGNED, SCB_CFSR_UNDEFINSTR,
         SCB_CFSR_BFARVALID, SCB_CFSR_LSPERR, SCB_CFSR_STKERR,
         SCB_CFSR_UNSTKERR, SCB_CFSR_IMPRECISERR, SCB_CFSR_PRECISERR,
         SCB_CFSR_IBUSERR, SCB_CFSR_MMARVALID, SCB_CFSR_MLSPERR,
         SCB_CFSR_MSTKERR, SCB_CFSR_MUNSTKERR, SCB_CFSR_DACCVIOL,
         SCB_CFSR_IACCVIOL;
  rewrite ?c_and_bit by lia.

(** Splits on every C condition that guards a branch. *)
Ltac split_on_conditions :=
  repeat match goal with
         | |- context [if c_and ?x ?m then _ else _] => destruct (c_and x m)
         end.

(** Splits on the status bits that still guard a branch, most significant
    guard first, and closes each case by evaluation. *)
Ltac by_cases_on_bits :=
  repeat match goal with
         | |- context [if Z.testbit ?x ?n then _ else _] =>
             destruct (Z.testbit x n)
         | |- context [Z.testbit ?x ?n || _] =>
             destruct (Z.testbit x n); cbn [orb]
         end;
  try reflexivity.

(* ================================================================= *)
(** ** Diagnostics: the reason line *)

(** C5.  For every CFSR value, [printExtraInfo] with kind [Usage_Fault] emits
    exactly one "Reason:" line, the first match of the table divide-by-zero
    (bit 25), unaligned access (bit 24), undefined instruction (bit 16), with
    "Unknown" as the default; in particular, with bits 25 and 24 both set the
    reason is "Division by zero". *)
Theorem usage_fault_reason_first_match
    (aFrame : CortexExceptionCpuFrameType) (s : SCB_Type) :
  reason_lines (log_of (printExtraInfo aFrame Usage_Fault) s)
    = [reason_line (spec_first_match spec_usage_rules (scb_CFSR s))]
  /\ (Z.testbit (scb_CFSR s) 25 = true ->
      Z.testbit (scb_CFSR s) 24 = true ->
      reason_lines (log_of (printExtraInfo aFrame Usage_Fault) s)
        = [reason_line "Division by zero"]).
Proof.
  run_print. status_bits.
  cbv [spec_first_match spec_usage_rules spec_rule_matches existsb fst snd].
  rewrite ?orb_false_r.
  destruct (Z.testbit (scb_CFSR s) 25).
  - split; [reflexivity | intros _ _; reflexivity].
  - split; [by_cases_on_bits | discriminate].
Qed.

Lemma usage_fault_reason_first_match_witness :
  reason_lines (log_of (printExtraInfo sample_frame Usage_Fault)
                       (scb_with_status 0x03000000))
    = [reason_line "Division by zero"].
Proof.
  apply (proj2 (usage_fault_reason_first_match sample_frame
                  (scb_with_status 0x03000000))); reflexivity.
Defined.

(** C6.  For every CFSR value, [printExtraInfo] with kind [Bus_Fault] emits a
    single "Reason:" line, the first match of the table instruction-bus
    error (bit 8), precise or imprecise data-bus error (bits 9, 10), stacking
    or unstacking error (bits 12, 11), lazy-state error (bit 13), with
    "Unknown" when none of those bits is set. *)
Theorem bus_fault_reason_first_match
    (aFrame : CortexExceptionCpuFrameType) (s : SCB_Type) :
  reason_lines (log_of (printExtraInfo aFrame Bus_Fault) s)
    = [reason_line (spec_first_match spec_bus_rules (scb_CFSR s))].
Proof.
  run_print. status_bits.
  cbv [spec_first_match spec_bus_rules spec_rule_matches existsb fst snd].
  rewrite ?orb_false_r.
  by_cases_on_bits.
Qed.

(** X1.  What the MemManage branch does, for every CFSR value: a single
    "Reason:" line, the first match of instruction-access violation (bit 0),
    data-access violation (bit 1), stacking or unstacking error (bits 4, 3),
    bit 13, with "Unknown" as the default. *)
Lemma memmang_reason_as_coded
    (aFrame : CortexExceptionCpuFrameType) (s : SCB_Type) :
  reason_lines (log_of (printExtraInfo aFrame MemMang_Fault) s)
    = [reason_line (spec_first_match code_memmanage_rules (scb_CFSR s))].
Proof.
  run_print. status_bits.
  cbv [spec_first_match code_memmanage_rules spec_rule_matches existsb fst snd].
  rewrite ?orb_false_r.
  by_cases_on_bits.
Qed.

(** C2.  The MemManage table of the specification ends with MLSPERR (bit 5);
    the MemManage branch of [printExtraInfo] tests [SCB_CFSR_LSPERR] (bit 13)
    in that place.  With only bit 5 set the code reports "Unknown" where the
    table says "Floating point fault", and with only bit 13 set (no MemManage
    bit at all) the code reports "Floating point fault" where the table says
    "Unknown". *)
Theorem memmang_lazy_state_tests_bus_bit :
  (reason_lines (log_of (printExtraInfo sample_frame MemMang_Fault)
                        (scb_with_status SCB_CFSR_MLSPERR))
     = [reason_line "Unknown"]
   /\ spec_first_match spec_memmanage_rules SCB_CFSR_MLSPERR
     = "Floating point fault"%string)
  /\
  (reason_lines (log_of (printExtraInfo sample_frame MemMang_Fault)
                        (scb_with_status SCB_CFSR_LSPERR))
     = [reason_line "Floating point fault"]
   /\ spec_first_match spec_memmanage_rules SCB_CFSR_LSPERR
     = "Unknown"%string).
Proof.
  repeat split; vm_compute; reflexivity.
Qed.

(** C7.  For every CFSR and HFSR value, [printExtraInfo] with kind
    [Hard_Fault] prints the single reason "Unknown", reads HFSR, and prints
    the value read, next to CFSR, in the register dump. *)
Theorem hard_fault_reason_unknown_hfsr_verbatim
    (aFrame : CortexExceptionCpuFrameType) (s : SCB_Type) :
  reason_lines (log_of (printExtraInfo aFrame Hard_Fault) s)
    = [reason_line "Unknown"]
  /\ reads_of (log_of (printExtraInfo aFrame Hard_Fault) s) = [CFSR; HFSR]
  /\ printed_with fmt_hfsr_cfsr (log_of (printExtraInfo aFrame Hard_Fault) s)
    = [[scb_HFSR s; scb_CFSR s]].
Proof.
  repeat split.
Qed.

(* ================================================================= *)
(** ** Diagnostics: the fault address and the register reads *)

(** C3.  In a BusFault report the printed fault address is the content of
    BFAR when BFARVALID (bit 15) is set and the sentinel when it is clear,
    and BFAR is read exactly when the bit is set; likewise in a
    MemManageFault report for MMFAR and MMARVALID (bit 7). *)
Theorem fault_address_respects_validity
    (aFrame : CortexExceptionCpuFrameType) (s : SCB_Type) :
  (printed_with fmt_fault_address (log_of (printExtraInfo aFrame Bus_Fault) s)
     = [[if Z.testbit (scb_CFSR s) 15
         then scb_BFAR s
         else EXCEPTION_HANDLER_FIELD_IS_INVALID]]
   /\ is_read BFAR (log_of (printExtraInfo aFrame Bus_Fault) s)
     = Z.testbit (scb_CFSR s) 15)
  /\
  (printed_with fmt_fault_address (log_of (printExtraInfo aFrame MemMang_Fault) s)
     = [[if Z.testbit (scb_CFSR s) 7
         then scb_MMFAR s
         else EXCEPTION_HANDLER_FIELD_IS_INVALID]]
   /\ is_read MMFAR (log_of (printExtraInfo aFrame MemMang_Fault) s)
     = Z.testbit (scb_CFSR s) 7).
Proof.
  split.
  - run_print. status_bits.
    destruct (Z.testbit (scb_CFSR s) 15); split; by_cases_on_bits.
  - run_print. status_bits.
    destruct (Z.testbit (scb_CFSR s) 7); split; by_cases_on_bits.
Qed.

(** C9.  HFSR is read only for [Hard_Fault]; for the other kinds the value
    printed after "HFSR=" is the sentinel.  BFAR is read only in the
    [Bus_Fault] branch and MMFAR only in the [MemMang_Fault] branch, so for
    [Hard_Fault] and [Usage_Fault] the value printed after "Fault address="
    is the sentinel. *)
Theorem hfsr_and_address_reads_by_kind
    (aFrame : CortexExceptionCpuFrameType) (eType : exceptionType)
    (s : SCB_Type) :
  let log := log_of (printExtraInfo aFrame eType) s in
  is_read HFSR log
    = match eType with Hard_Fault => true | _ => false end
  /\ printed_with fmt_hfsr_cfsr log
    = [[match eType with
        | Hard_Fault => scb_HFSR s
        | _ => EXCEPTION_HANDLER_FIELD_IS_INVALID
        end; scb_CFSR s]]
  /\ is_read BFAR log
    = match eType with Bus_Fault => Z.testbit (scb_CFSR s) 15 | _ => false end
  /\ is_read MMFAR log
    = match eType with MemMang_Fault => Z.testbit (scb_CFSR s) 7 | _ => false end
  /\ match eType with
     | Hard_Fault | Usage_Fault =>
         printed_with fmt_fault_address log
           = [[EXCEPTION_HANDLER_FIELD_IS_INVALID]]
     | Bus_Fault | MemMang_Fault => True
     end.
Proof.
  intros log; subst log.
  destruct eType; run_print; status_bits.
  - repeat split.
  - destruct (Z.testbit (scb_CFSR s) 7); repeat split; by_cases_on_bits.
  - destruct (Z.testbit (scb_CFSR s) 15); repeat split; by_cases_on_bits.
  - repeat split; by_cases_on_bits.
Qed.

(* ================================================================= *)
(** ** Configuration: exceptionsInit *)

Lemma wrap32_testbit (v i : Z) :
  0 <= i -> Z.testbit (wrap32 v) i = (i <? 32) && Z.testbit v i.
Proof.
  intros Hi. unfold wrap32.
  destruct (i <? 32) eqn:Hlt.
  - apply Z.ltb_lt in Hlt. now rewrite Z.mod_pow2_bits_low by lia.
  - apply Z.ltb_ge in Hlt. now rewrite Z.mod_pow2_bits_high by lia.
Qed.

Lemma wrap32_u32 (v : Z) : is_u32 v -> wrap32 v = v.
Proof. intros H. apply Z.mod_small. exact H. Qed.

Lemma u32_high_bit (v i : Z) :
  is_u32 v -> 32 <= i -> Z.testbit v i = false.
Proof.
  intros Hv Hi. rewrite <- (wrap32_u32 v Hv).
  rewrite wrap32_testbit by lia.
  replace (i <? 32) with false by (symmetry; apply Z.ltb_ge; lia).
  reflexivity.
Qed.

(** Or-ing the same mask into a register twice stores what the first
    assignment stored. *)
Lemma or_assign_twice (x m : Z) :
  wrap32 (Z.lor (wrap32 (Z.lor x m)) m) = wrap32 (Z.lor x m).
Proof.
  apply Z.bits_inj'. intros i Hi.
  rewrite !wrap32_testbit, !Z.lor_spec, wrap32_testbit, Z.lor_spec by lia.
  destruct (i <? 32), (Z.testbit x i), (Z.testbit m i); reflexivity.
Qed.

(** After or-ing [m] into a register, every bit of a 32-bit part [k] of [m]
    is set. *)
Lemma or_assign_sets (x m k : Z) :
  is_u32 k -> Z.land m k = k -> Z.land (wrap32 (Z.lor x m)) k = k.
Proof.
  intros Hk Hsub.
  apply Z.bits_inj'. intros i Hi.
  rewrite Z.land_spec, wrap32_testbit, Z.lor_spec by lia.
  assert (Hm : Z.testbit k i = Z.testbit m i && Z.testbit k i)
    by (rewrite <- Z.land_spec, Hsub; reflexivity).
  destruct (i <? 32) eqn:Hlt.
  - destruct (Z.testbit x i), (Z.testbit m i), (Z.testbit k i);
      cbn in *; congruence.
  - apply Z.ltb_ge in Hlt. rewrite (u32_high_bit k i Hk Hlt).
    apply andb_false_r.
Qed.

Lemma land_lor_l (a b : Z) : Z.land (Z.lor a b) a = a.
Proof.
  apply Z.bits_inj'. intros i _.
  rewrite Z.land_spec, Z.lor_spec.
  destruct (Z.testbit a i), (Z.testbit b i); reflexivity.
Qed.

Lemma land_lor_r (a b : Z) : Z.land (Z.lor a b) b = b.
Proof. rewrite Z.lor_comm. apply land_lor_l. Qed.

(** The bits of a 32-bit register after [|=]. *)
Lemma or_assign_testbit (x m i : Z) :
  is_u32 x ->
  Z.testbit (wrap32 (Z.lor x m)) i
  = Z.testbit x i || ((i <? 32) && Z.testbit m i).
Proof.
  intros Hx.
  destruct (Z.neg_nonneg_cases i) as [Hneg|Hi].
  - rewrite !Z.testbit_neg_r by lia.
    rewrite andb_false_r. reflexivity.
  - rewrite wrap32_testbit, Z.lor_spec by lia.
    destruct (i <? 32) eqn:Hlt; cbn [andb].
    + reflexivity.
    + apply Z.ltb_ge in Hlt. rewrite (u32_high_bit x i Hx Hlt). reflexivity.
Qed.

(** Exposes the registers and the log after [exceptionsInit]. *)
Ltac run_init :=
  cbv [final_scb log_of exceptionsInit scb_or_assign bind scb_read scb_write
       scb_get scb_set ret fst snd app
       scb_CCR scb_SHCSR scb_CFSR scb_HFSR scb_MMFAR scb_BFAR
       ccr_enable_mask TRAP_DIVIDE_BY_ZERO_ONLY].

Lemma sample_scb_wf : wf_scb sample_scb.
Proof. intros []; vm_compute; split; congruence. Defined.

Lemma armv7m_masks_u32 : masks_u32 armv7m_header.
Proof. repeat split; vm_compute; congruence. Defined.

(** C8.  [exceptionsInit] always completes; one call leaves the
    divide-by-zero trap enable set in CCR and the usage-, bus- and
    memory-management-fault enables set in SHCSR, and a second call from the
    resulting state leaves every register as the first call left it. *)
Theorem exceptionsInit_idempotent (dev : DeviceHeader) (s : SCB_Type) :
  masks_u32 dev ->
  let s1 := final_scb exceptionsInit s in
  Z.land (scb_CCR s1) SCB_CCR_DIV_0_TRP_Msk = SCB_CCR_DIV_0_TRP_Msk
  /\ Z.land (scb_SHCSR s1) SCB_SHCSR_USGFAULTENA_Msk = SCB_SHCSR_USGFAULTENA_Msk
  /\ Z.land (scb_SHCSR s1) SCB_SHCSR_BUSFAULTENA_Msk = SCB_SHCSR_BUSFAULTENA_Msk
  /\ Z.land (scb_SHCSR s1) SCB_SHCSR_MEMFAULTENA_Msk = SCB_SHCSR_MEMFAULTENA_Msk
  /\ final_scb exceptionsInit s1 = s1.
Proof.
  intros (_ & Hdiv & Husg & Hbus & Hmem) s1. subst s1.
  destruct s as [ccr shcsr cfsr hfsr mmfar bfar]. run_init.
  repeat split.
  - apply or_assign_sets; [exact Hdiv | apply Z.land_diag].
  - apply or_assign_sets; [exact Husg |].
    unfold shcsr_enable_mask. rewrite <- Z.lor_assoc. apply land_lor_l.
  - apply or_assign_sets; [exact Hbus |].
    unfold shcsr_enable_mask.
    rewrite (Z.lor_comm SCB_SHCSR_USGFAULTENA_Msk), <- Z.lor_assoc.
    apply land_lor_l.
  - apply or_assign_sets; [exact Hmem |].
    unfold shcsr_enable_mask. apply land_lor_r.
  - rewrite !or_assign_twice. reflexivity.
Qed.

Lemma exceptionsInit_idempotent_witness :
  masks_u32 armv7m_header
  /\ final_scb (@exceptionsInit armv7m_header)
               (final_scb (@exceptionsInit armv7m_header) sample_scb)
     = mkSCB 0x00000210 0x00070001 0 0 0 0.
Proof.
  split; [exact armv7m_masks_u32 |].
  destruct (exceptionsInit_idempotent armv7m_header sample_scb armv7m_masks_u32)
    as (_ & _ & _ & _ & Hidem).
  rewrite Hidem. reflexivity.
Defined.

(** C10.  [exceptionsInit] only ors into CCR and SHCSR: a bit set before the
    call is set after it, a bit outside the enable masks keeps its value, the
    other registers of the block keep theirs, and the only writes are one to
    CCR and one to SHCSR. *)
Theorem exceptionsInit_frame (dev : DeviceHeader) (s : SCB_Type) :
  wf_scb s ->
  let s1 := final_scb exceptionsInit s in
  (forall i, Z.testbit (scb_CCR s) i = true -> Z.testbit (scb_CCR s1) i = true)
  /\ (forall i, Z.testbit (scb_SHCSR s) i = true ->
                Z.testbit (scb_SHCSR s1) i = true)
  /\ (forall i, Z.testbit SCB_CCR_DIV_0_TRP_Msk i = false ->
                Z.testbit (scb_CCR s1) i = Z.testbit (scb_CCR s) i)
  /\ (forall i, Z.testbit SCB_SHCSR_USGFAULTENA_Msk i = false ->
                Z.testbit SCB_SHCSR_BUSFAULTENA_Msk i = false ->
                Z.testbit SCB_SHCSR_MEMFAULTENA_Msk i = false ->
                Z.testbit (scb_SHCSR s1) i = Z.testbit (scb_SHCSR s) i)
  /\ scb_CFSR s1 = scb_CFSR s
  /\ scb_HFSR s1 = scb_HFSR s
  /\ scb_MMFAR s1 = scb_MMFAR s
  /\ scb_BFAR s1 = scb_BFAR s
  /\ map fst (writes_of (log_of exceptionsInit s)) = [CCR; SHCSR].
Proof.
  intros Hwf s1. subst s1.
  pose proof (Hwf CCR) as Hccr. pose proof (Hwf SHCSR) as Hshcsr.
  destruct s as [ccr shcsr cfsr hfsr mmfar bfar].
  cbn [scb_get scb_CCR scb_SHCSR] in Hccr, Hshcsr.
  run_init.
  repeat split; try reflexivity; intros i.
  - intros Hset. rewrite or_assign_testbit, Hset by assumption. reflexivity.
  - intros Hset. rewrite or_assign_testbit, Hset by assumption. reflexivity.
  - intros Hout. rewrite or_assign_testbit, Hout by assumption.
    rewrite andb_false_r, orb_false_r. reflexivity.
  - intros Husg Hbus Hmem. unfold shcsr_enable_mask.
    rewrite or_assign_testbit, !Z.lor_spec, Husg, Hbus, Hmem by assumption.
    rewrite andb_false_r, orb_false_r. reflexivity.
Qed.

Lemma exceptionsInit_frame_witness :
  wf_scb sample_scb
  /\ map fst (writes_of (log_of (@exceptionsInit armv7m_header) sample_scb))
     = [CCR; SHCSR].
Proof.
  split; [exact sample_scb_wf |].
  apply (exceptionsInit_frame armv7m_header sample_scb sample_scb_wf).
Defined.

(* ================================================================= *)
(** ** The trampolines *)

(** [tst rn, #4] leaves Z clear exactly when bit 2 of [rn] is set. *)
Lemma tst_4_is_bit_2 (x : Z) : (Z.land x 4 =? 0) = negb (Z.testbit x 2).
Proof.
  rewrite <- (c_and_bit x 2) by lia.
  unfold c_and. rewrite negb_involutive. reflexivity.
Qed.

Lemma vector_shape (k : exceptionType) :
  Thumb.vector k = Thumb.shape (Thumb.handler_symbol k).
Proof. destruct k; reflexivity. Qed.

(** The state in which a trampoline hands over, and where it branches to. *)
Lemma run_trampoline (address_of : Thumb.symbol -> Z) (h : Thumb.symbol)
                     (s : Thumb.cpu) :
  Thumb.at_entry s ->
  Thumb.run address_of (Thumb.shape h) s
  = Some (address_of h,
          Thumb.mkCpu
            (if Z.testbit (Thumb.lr s) 2 then Thumb.psp s else Thumb.msp s)
            (address_of h) (Thumb.lr s) (Thumb.msp s) (Thumb.psp s)
            0 0
            (Z.testbit (Z.land (Thumb.lr s) 4) 31)
            (negb (Z.testbit (Thumb.lr s) 2))
            []).
Proof.
  unfold Thumb.at_entry. destruct s as [a b l m p pm fm n z it].
  cbn [Thumb.itstate Thumb.lr Thumb.msp Thumb.psp]. intros ->.
  unfold Thumb.shape.
  cbn [Thumb.run Thumb.step Thumb.al Thumb.on Thumb.suffix Thumb.op
       Thumb.itstate Thumb.exec_op Thumb.set_flags Thumb.set_itstate
       Thumb.get_gpr Thumb.negate Thumb.cond_eqb Thumb.cond_holds
       Thumb.r0 Thumb.r1 Thumb.lr Thumb.msp Thumb.psp Thumb.primask
       Thumb.faultmask Thumb.flagN Thumb.flagZ].
  rewrite tst_4_is_bit_2.
  destruct (Z.testbit l 2); reflexivity.
Qed.

(** C4.  Whatever the fault kind, the trampoline reaches its handler with the
    main stack pointer in [r0] when bit 2 of the link register is 0, and with
    the process stack pointer when the bit is 1. *)
Theorem trampoline_selects_stack_pointer
    (address_of : Thumb.symbol -> Z) (k : exceptionType) (s : Thumb.cpu) :
  Thumb.at_entry s ->
  exists s',
    Thumb.run address_of (Thumb.vector k) s
      = Some (address_of (Thumb.handler_symbol k), s')
    /\ Thumb.r0 s'
       = if Z.testbit (Thumb.lr s) 2 then Thumb.psp s else Thumb.msp s.
Proof.
  intros Hentry.
  rewrite vector_shape, (run_trampoline _ _ _ Hentry).
  eexists. split; reflexivity.
Qed.

Lemma trampoline_selects_stack_pointer_witness :
  Thumb.at_entry sample_entry
  /\ exists s',
       Thumb.run sample_addresses (Thumb.vector Bus_Fault) sample_entry
         = Some (sample_addresses Thumb.sym_busFault, s')
       /\ Thumb.r0 s' = 0x20010000.
Proof.
  split; [reflexivity |].
  apply (trampoline_selects_stack_pointer sample_addresses Bus_Fault
           sample_entry).
  reflexivity.
Defined.

(** C1.  The specification wants PRIMASK and FAULTMASK set when the handler
    is reached.  Every trampoline writes [r1], which holds 0, to both: the
    handler is reached with PRIMASK and FAULTMASK clear, whatever they were
    at entry. *)
Theorem trampoline_leaves_masks_clear
    (address_of : Thumb.symbol -> Z) (k : exceptionType) (s : Thumb.cpu) :
  Thumb.at_entry s ->
  exists s',
    Thumb.run address_of (Thumb.vector k) s
      = Some (address_of (Thumb.handler_symbol k), s')
    /\ Thumb.primask s' = 0
    /\ Thumb.faultmask s' = 0.
Proof.
  intros Hentry.
  rewrite vector_shape, (run_trampoline _ _ _ Hentry).
  eexists. repeat split.
Qed.

Lemma trampoline_leaves_masks_clear_witness :
  Thumb.at_entry sample_entry
  /\ Thumb.primask sample_entry = 1
  /\ exists s',
       Thumb.run sample_addresses (Thumb.vector Hard_Fault) sample_entry
         = Some (sample_addresses Thumb.sym_hardFault, s')
       /\ Thumb.primask s' = 0
       /\ Thumb.faultmask s' = 0.
Proof.
  split; [reflexivity |]. split; [reflexivity |].
  apply (trampoline_leaves_masks_clear sample_addresses Hard_Fault
           sample_entry).
  reflexivity.
Defined.

(* ================================================================= *)
(** ** The C handlers *)


(** X3.  A handler never changes the System Control Block. *)
Lemma fault_handler_keeps_scb (debug : bool) (eType : exceptionType)
                              (aFrame : CortexExceptionCpuFrameType)
                              (s : SCB_Type) :
  final_scb (fault_handler debug eType aFrame) s = s.
Proof.
  destruct debug; [| reflexivity].
  cbv [fault_handler when final_scb BKPT].
  destruct eType; run_print; split_on_conditions; reflexivity.
Qed.

(* ================================================================= *)
(** ** The layout of a report *)

(** X4.  A report holds exactly one "Type:" line, the one of its fault
    kind. *)
Theorem type_line_matches_kind
    (aFrame : CortexExceptionCpuFrameType) (eType : exceptionType)
    (s : SCB_Type) :
  type_lines (log_of (printExtraInfo aFrame eType) s)
  = [match eType with
     | Hard_Fault    => fmt_type_hard
     | MemMang_Fault => fmt_type_mem
     | Bus_Fault     => fmt_type_bus
     | Usage_Fault   => fmt_type_usage
     end].
Proof.
  destruct eType; run_print; split_on_conditions; reflexivity.
Qed.

(** X5.  A report reads registers and prints; it writes no register, and it
    dumps the eight registers of the frame it was given, each pair once. *)
Theorem report_is_display_only
    (aFrame : CortexExceptionCpuFrameType) (eType : exceptionType)
    (s : SCB_Type) :
  let log := log_of (printExtraInfo aFrame eType) s in
  writes_of log = []
  /\ final_scb (printExtraInfo aFrame eType) s = s
  /\ printed_with fmt_r0_r1 log  = [[m_R0 aFrame;  m_R1 aFrame]]
  /\ printed_with fmt_r2_r3 log  = [[m_R2 aFrame;  m_R3 aFrame]]
  /\ printed_with fmt_r12_lr log = [[m_R12 aFrame; m_LR aFrame]]
  /\ printed_with fmt_pc_psr log = [[m_PC aFrame;  m_PSR aFrame]].
Proof.
  intros log; subst log.
  destruct eType; run_print; split_on_conditions; repeat split.
Qed.

(** X6.  Whatever the kind and the registers, a report starts by reading
    CFSR, before anything is printed, and prints nine lines in a fixed
    order: the banner, the type, one reason, the four pairs of frame
    registers, the two status registers and the fault address. *)
Theorem report_layout
    (aFrame : CortexExceptionCpuFrameType) (eType : exceptionType)
    (s : SCB_Type) :
  let log := log_of (printExtraInfo aFrame eType) s in
  hd_error log = Some (Read CFSR)
  /\ exists reason,
       reason_lines log = [reason]
       /\ format_lines log
          = [fmt_banner;
             match eType with
             | Hard_Fault    => fmt_type_hard
             | MemMang_Fault => fmt_type_mem
             | Bus_Fault     => fmt_type_bus
             | Usage_Fault   => fmt_type_usage
             end;
             reason;
             fmt_r0_r1; fmt_r2_r3; fmt_r12_lr; fmt_pc_psr;
             fmt_hfsr_cfsr; fmt_fault_address].
Proof.
  intros log; subst log.
  destruct eType; run_print; split_on_conditions;
    (split; [reflexivity | eexists; split; reflexivity]).
Qed.

(** X7.  The registers a report reads: CFSR once and first, then HFSR for a
    hard fault, BFAR for a bus fault whose BFARVALID is set, MMFAR for a
    memory fault whose MMARVALID is set, and nothing else. *)
Theorem report_reads
    (aFrame : CortexExceptionCpuFrameType) (eType : exceptionType)
    (s : SCB_Type) :
  reads_of (log_of (printExtraInfo aFrame eType) s)
  = CFSR ::
    match eType with
    | Hard_Fault    => [HFSR]
    | Bus_Fault     => if Z.testbit (scb_CFSR s) 15 then [BFAR] else []
    | MemMang_Fault => if Z.testbit (scb_CFSR s) 7 then [MMFAR] else []
    | Usage_Fault   => []
    end.
Proof.
  destruct eType; run_print; status_bits.
  - reflexivity.
  - destruct (Z.testbit (scb_CFSR s) 7); by_cases_on_bits.
  - destruct (Z.testbit (scb_CFSR s) 15); by_cases_on_bits.
  - by_cases_on_bits.
Qed.

(* ================================================================= *)
(** ** Stale status bits *)

Lemma land_agree_bit (a b m i : Z) :
  Z.land a m = Z.land b m -> Z.testbit m i = true ->
  Z.testbit a i = Z.testbit b i.
Proof.
  intros Hab Hm.
  assert (H : Z.testbit (Z.land a m) i = Z.testbit (Z.land b m) i)
    by (rewrite Hab; reflexivity).
  rewrite !Z.land_spec, Hm, !andb_true_r in H. exact H.
Qed.

(** Rewrites the listed bits of one status word into those of another that
    agrees with it under a mask. *)
Ltac agree_on H bits :=
  match bits with
  | nil => idtac
  | cons ?n ?rest =>
      rewrite ?(land_agree_bit _ _ _ n H) by reflexivity; agree_on H rest
  end.

(** X8.  CFSR is shared by the fault kinds and the code never clears it.  A
    usage-fault report gives the same reason for two CFSR values that agree
    on the usage fault status bits, whatever the bits of the other kinds. *)
Theorem usage_reason_ignores_other_status
    (aFrame : CortexExceptionCpuFrameType) (s1 s2 : SCB_Type) :
  Z.land (scb_CFSR s1) usage_status_bits
    = Z.land (scb_CFSR s2) usage_status_bits ->
  reason_lines (log_of (printExtraInfo aFrame Usage_Fault) s1)
  = reason_lines (log_of (printExtraInfo aFrame Usage_Fault) s2).
Proof.
  intros Hagree.
  run_print. status_bits.
  agree_on Hagree [25; 24; 16].
  by_cases_on_bits.
Qed.

Lemma usage_reason_ignores_other_status_witness :
  reason_lines (log_of (printExtraInfo sample_frame Usage_Fault)
                       (scb_with_status 0x0100FFFF))
  = reason_lines (log_of (printExtraInfo sample_frame Usage_Fault)
                         (scb_with_status 0x01000000)).
Proof.
  apply (usage_reason_ignores_other_status sample_frame
           (scb_with_status 0x0100FFFF) (scb_with_status 0x01000000)).
  reflexivity.
Defined.

(** X9.  A bus-fault report gives the same reason and the same fault
    address, and reads the same registers, for two register blocks that
    agree on the bus fault status bits of CFSR and on BFAR. *)
Theorem bus_report_ignores_other_status
    (aFrame : CortexExceptionCpuFrameType) (s1 s2 : SCB_Type) :
  Z.land (scb_CFSR s1) bus_status_bits
    = Z.land (scb_CFSR s2) bus_status_bits ->
  scb_BFAR s1 = scb_BFAR s2 ->
  reason_lines (log_of (printExtraInfo aFrame Bus_Fault) s1)
    = reason_lines (log_of (printExtraInfo aFrame Bus_Fault) s2)
  /\ printed_with fmt_fault_address (log_of (printExtraInfo aFrame Bus_Fault) s1)
    = printed_with fmt_fault_address (log_of (printExtraInfo aFrame Bus_Fault) s2)
  /\ reads_of (log_of (printExtraInfo aFrame Bus_Fault) s1)
    = reads_of (log_of (printExtraInfo aFrame Bus_Fault) s2).
Proof.
  destruct s1 as [ccr1 shcsr1 cfsr1 hfsr1 mmfar1 bfar1].
  destruct s2 as [ccr2 shcsr2 cfsr2 hfsr2 mmfar2 bfar2].
  cbn [scb_CFSR scb_BFAR]. intros Hagree <-.
  run_print. cbv [scb_CFSR scb_BFAR]. status_bits.
  agree_on Hagree [15; 13; 12; 11; 10; 9; 8].
  destruct (Z.testbit cfsr2 15); repeat split; by_cases_on_bits.
Qed.

Lemma bus_report_ignores_other_status_witness :
  printed_with fmt_fault_address
    (log_of (printExtraInfo sample_frame Bus_Fault) (scb_with_status 0x030082FF))
  = printed_with fmt_fault_address
      (log_of (printExtraInfo sample_frame Bus_Fault) (scb_with_status 0x00008200)).
Proof.
  apply (bus_report_ignores_other_status sample_frame
           (scb_with_status 0x030082FF) (scb_with_status 0x00008200));
    reflexivity.
Defined.

(* ================================================================= *)
(** ** More on exceptionsInit *)

Lemma wrap32_is_u32 (v : Z) : is_u32 (wrap32 v).
Proof. unfold is_u32, wrap32. apply Z.mod_pos_bound. lia. Qed.

Lemma or_assign_u32 (x m : Z) :
  is_u32 x -> is_u32 m -> wrap32 (Z.lor x m) = Z.lor x m.
Proof.
  intros Hx Hm. apply Z.bits_inj. intros i.
  rewrite or_assign_testbit, Z.lor_spec by assumption.
  destruct (i <? 32) eqn:Hlt; cbn [andb]; [reflexivity |].
  apply Z.ltb_ge in Hlt.
  destruct (Z.neg_nonneg_cases i) as [Hneg | Hi]; [lia |].
  rewrite (u32_high_bit m i Hm Hlt). reflexivity.
Qed.

Lemma lor_is_u32 (a b : Z) : is_u32 a -> is_u32 b -> is_u32 (Z.lor a b).
Proof.
  intros Ha Hb. rewrite <- (or_assign_u32 a b Ha Hb). apply wrap32_is_u32.
Qed.

(** Or-ing a mask in changes nothing exactly when the mask is already
    there. *)
Lemma lor_fixed_iff (x m : Z) : Z.lor x m = x <-> Z.land x m = m.
Proof.
  split; intros H; apply Z.bits_inj; intros i.
  - assert (Hi : Z.testbit (Z.lor x m) i = Z.testbit x i) by (rewrite H; reflexivity).
    rewrite Z.lor_spec in Hi. rewrite Z.land_spec.
    destruct (Z.testbit x i), (Z.testbit m i); cbn in *; congruence.
  - assert (Hi : Z.testbit (Z.land x m) i = Z.testbit m i) by (rewrite H; reflexivity).
    rewrite Z.land_spec in Hi. rewrite Z.lor_spec.
    destruct (Z.testbit x i), (Z.testbit m i); cbn in *; congruence.
Qed.

Ltac run_init_build :=
  cbv [final_scb log_of exceptionsInit exceptionsInit_build scb_or_assign
       bind scb_read scb_write scb_get scb_set ret fst snd app
       scb_CCR scb_SHCSR scb_CFSR scb_HFSR scb_MMFAR scb_BFAR
       ccr_enable_mask TRAP_DIVIDE_BY_ZERO_ONLY].



(** X11.  [exceptionsInit] changes nothing exactly when every enable it
    sets is already set: on a 32-bit register block, the call returns the
    block it was given if and only if CCR holds the divide-by-zero trap
    enable and SHCSR holds the three fault enables. *)
Theorem exceptionsInit_fixed_iff (dev : DeviceHeader) (s : SCB_Type) :
  wf_scb s -> masks_u32 dev ->
  (final_scb exceptionsInit s = s
   <-> Z.land (scb_CCR s) SCB_CCR_DIV_0_TRP_Msk = SCB_CCR_DIV_0_TRP_Msk
       /\ Z.land (scb_SHCSR s) SCB_SHCSR_USGFAULTENA_Msk = SCB_SHCSR_USGFAULTENA_Msk
       /\ Z.land (scb_SHCSR s) SCB_SHCSR_BUSFAULTENA_Msk = SCB_SHCSR_BUSFAULTENA_Msk
       /\ Z.land (scb_SHCSR s) SCB_SHCSR_MEMFAULTENA_Msk = SCB_SHCSR_MEMFAULTENA_Msk).
Proof.
  intros Hwf (_ & Hdiv & Husg & Hbus & Hmem).
  pose proof (Hwf CCR) as Hccr. pose proof (Hwf SHCSR) as Hshcsr.
  destruct s as [ccr shcsr cfsr hfsr mmfar bfar].
  cbn [scb_get scb_CCR scb_SHCSR] in *.
  run_init. unfold shcsr_enable_mask.
  rewrite !or_assign_u32 by (try assumption; repeat apply lor_is_u32; assumption).
  rewrite <- !lor_fixed_iff.
  split.
  - intros Heq. injection Heq as Hc Hs.
    split; [exact Hc |].
    assert (Hbits : forall i,
               Z.testbit shcsr i
               = Z.testbit shcsr i
                 || (Z.testbit SCB_SHCSR_USGFAULTENA_Msk i
                     || Z.testbit SCB_SHCSR_BUSFAULTENA_Msk i
                     || Z.testbit SCB_SHCSR_MEMFAULTENA_Msk i)).
    { intros i. rewrite <- !Z.lor_spec, Hs. reflexivity. }
    repeat split; apply Z.bits_inj; intros i; specialize (Hbits i);
      rewrite Z.lor_spec;
      destruct (Z.testbit shcsr i),
               (Z.testbit SCB_SHCSR_USGFAULTENA_Msk i),
               (Z.testbit SCB_SHCSR_BUSFAULTENA_Msk i),
               (Z.testbit SCB_SHCSR_MEMFAULTENA_Msk i);
      cbn in *; congruence.
  - intros (Hc & Hu & Hb & Hm).
    rewrite Hc. f_equal.
    rewrite !Z.lor_assoc, Hu, Hb, Hm. reflexivity.
Qed.

Lemma configured_scb_wf : wf_scb configured_scb.
Proof. intros []; vm_compute; split; congruence. Defined.

Lemma exceptionsInit_fixed_iff_witness :
  final_scb (@exceptionsInit armv7m_header) configured_scb = configured_scb.
Proof.
  apply (exceptionsInit_fixed_iff armv7m_header configured_scb
           configured_scb_wf armv7m_masks_u32).
  repeat split.
Defined.

(** X12.  Configuration does not disturb diagnosis: a report made after
    [exceptionsInit] is, event for event, the report that would have been
    made before it. *)
Theorem report_unaffected_by_init
    (dev : DeviceHeader) (aFrame : CortexExceptionCpuFrameType)
    (eType : exceptionType) (s : SCB_Type) :
  log_of (printExtraInfo aFrame eType) (final_scb exceptionsInit s)
  = log_of (printExtraInfo aFrame eType) s.
Proof.
  destruct s as [ccr shcsr cfsr hfsr mmfar bfar].
  run_init.
  destruct eType; run_print; cbv [scb_CFSR scb_HFSR scb_MMFAR scb_BFAR];
    split_on_conditions; reflexivity.
Qed.

(** X13.  As built, [exceptionsInit] leaves unaligned-access trapping as it
    found it: when the two CCR masks of the device header share no bit, the
    bits of [SCB_CCR_UNALIGN_TRP_Msk] in CCR are the same after the call. *)
Theorem exceptionsInit_keeps_unaligned_trap
    (dev : DeviceHeader) (s : SCB_Type) :
  wf_scb s ->
  Z.land SCB_CCR_DIV_0_TRP_Msk SCB_CCR_UNALIGN_TRP_Msk = 0 ->
  Z.land (scb_CCR (final_scb exceptionsInit s)) SCB_CCR_UNALIGN_TRP_Msk
  = Z.land (scb_CCR s) SCB_CCR_UNALIGN_TRP_Msk.
Proof.
  intros Hwf Hdisjoint.
  pose proof (Hwf CCR) as Hccr.
  destruct s as [ccr shcsr cfsr hfsr mmfar bfar].
  cbn [scb_get scb_CCR] in Hccr. run_init.
  apply Z.bits_inj. intros i.
  assert (Hi : Z.testbit SCB_CCR_DIV_0_TRP_Msk i
               && Z.testbit SCB_CCR_UNALIGN_TRP_Msk i = false)
    by (rewrite <- Z.land_spec, Hdisjoint; apply Z.bits_0).
  rewrite !Z.land_spec, or_assign_testbit by assumption.
  destruct (Z.testbit ccr i), (i <? 32),
           (Z.testbit SCB_CCR_DIV_0_TRP_Msk i),
           (Z.testbit SCB_CCR_UNALIGN_TRP_Msk i); cbn in *; congruence.
Qed.

Lemma exceptionsInit_keeps_unaligned_trap_witness :
  Z.land (scb_CCR (final_scb (@exceptionsInit armv7m_header) sample_scb))
         (Z.shiftl 1 3)
  = 0.
Proof.
  apply (exceptionsInit_keeps_unaligned_trap armv7m_header sample_scb
           sample_scb_wf).
  reflexivity.
Defined.

(** X14.  The build without [TRAP_DIVIDE_BY_ZERO_ONLY] differs from the
    build of the file in one thing only: CCR also receives
    [SCB_CCR_UNALIGN_TRP_Msk].  SHCSR and the other registers end up the
    same, and that build too changes nothing when called a second time. *)
Theorem alignment_build_adds_unaligned_trap
    (dev : DeviceHeader) (s : SCB_Type) :
  masks_u32 dev ->
  let s_div0 := final_scb (exceptionsInit_build true) s in
  let s_both := final_scb (exceptionsInit_build false) s in
  s_div0 = final_scb exceptionsInit s
  /\ s_both = scb_set CCR (Z.lor (scb_CCR s_div0) SCB_CCR_UNALIGN_TRP_Msk) s_div0
  /\ Z.land (scb_CCR s_both) SCB_CCR_UNALIGN_TRP_Msk = SCB_CCR_UNALIGN_TRP_Msk
  /\ Z.land (scb_CCR s_both) SCB_CCR_DIV_0_TRP_Msk = SCB_CCR_DIV_0_TRP_Msk
  /\ final_scb (exceptionsInit_build false) s_both = s_both.
Proof.
  intros (Hun & Hdiv & _) s_div0 s_both. subst s_div0 s_both.
  destruct s as [ccr shcsr cfsr hfsr mmfar bfar]. run_init_build.
  repeat split.
  - f_equal. apply Z.bits_inj'. intros i Hi.
    rewrite Z.lor_spec, !wrap32_testbit, !Z.lor_spec by lia.
    destruct (i <? 32) eqn:Hlt; cbn [andb].
    + destruct (Z.testbit ccr i), (Z.testbit SCB_CCR_UNALIGN_TRP_Msk i),
               (Z.testbit SCB_CCR_DIV_0_TRP_Msk i); reflexivity.
    + apply Z.ltb_ge in Hlt. rewrite (u32_high_bit _ i Hun Hlt). reflexivity.
  - apply or_assign_sets; [exact Hun | apply land_lor_l].
  - apply or_assign_sets; [exact Hdiv | apply land_lor_r].
  - rewrite !or_assign_twice. reflexivity.
Qed.

Lemma alignment_build_adds_unaligned_trap_witness :
  masks_u32 armv7m_header
  /\ scb_CCR (final_scb (@exceptionsInit_build armv7m_header false) sample_scb)
     = 0x00000218.
Proof.
  split; [exact armv7m_masks_u32 |].
  destruct (alignment_build_adds_unaligned_trap armv7m_header sample_scb
              armv7m_masks_u32) as (_ & Hboth & _).
  rewrite Hboth. reflexivity.
Defined.

(* ================================================================= *)
(** ** From the vector to the report *)

(** X15.  A trampoline leaves the context of the fault alone: it reaches its
    handler with the link register (EXC_RETURN) and both stack pointers as
    they were at exception entry, and with the IT block finished. *)
Theorem trampoline_preserves_context
    (address_of : Thumb.symbol -> Z) (k : exceptionType) (s : Thumb.cpu) :
  Thumb.at_entry s ->
  exists s',
    Thumb.run address_of (Thumb.vector k) s
      = Some (address_of (Thumb.handler_symbol k), s')
    /\ Thumb.lr s' = Thumb.lr s
    /\ Thumb.msp s' = Thumb.msp s
    /\ Thumb.psp s' = Thumb.psp s
    /\ Thumb.itstate s' = [].
Proof.
  intros Hentry.
  rewrite vector_shape, (run_trampoline _ _ _ Hentry).
  eexists. repeat split.
Qed.

Lemma trampoline_preserves_context_witness :
  Thumb.at_entry sample_entry
  /\ exists s',
       Thumb.run sample_addresses (Thumb.vector Usage_Fault) sample_entry
         = Some (sample_addresses Thumb.sym_usageFault, s')
       /\ Thumb.lr s' = 0xFFFFFFFD
       /\ Thumb.msp s' = 0x20020000
       /\ Thumb.psp s' = 0x20010000
       /\ Thumb.itstate s' = [].
Proof.
  split; [reflexivity |].
  apply (trampoline_preserves_context sample_addresses Usage_Fault
           sample_entry).
  reflexivity.
Defined.

(** When the handlers sit at distinct addresses, the handler found at the
    address of a kind's symbol is the handler of that kind. *)
Lemma handler_at_own (address_of : Thumb.symbol -> Z) (k : exceptionType) :
  distinct_addresses address_of ->
  handler_at address_of (address_of (Thumb.handler_symbol k)) = Some k.
Proof.
  intros Hinj. unfold handler_at, fault_kinds.
  assert (Hne : forall a b, a <> b -> (address_of a =? address_of b) = false).
  { intros a b Hab. apply Z.eqb_neq. intro H. apply Hab, Hinj, H. }
  destruct k; cbn [find Thumb.handler_symbol];
    rewrite ?Z.eqb_refl, ?Hne by discriminate; reflexivity.
Qed.

Lemma sample_addresses_distinct : distinct_addresses sample_addresses.
Proof. intros [] [] H; (reflexivity || discriminate H). Defined.

(** X16.  End to end: with the four handlers at distinct addresses, taking
    an exception of kind [k] calls the C handler of kind [k] on the frame
    stacked at MSP when bit 2 of the link register is 0 and at PSP when it
    is 1; in a debug build the "PC=" line of the report then shows the words
    24 and 28 bytes above that stack pointer, the stacked PC and PSR. *)
Theorem exception_reaches_handler_with_stacked_frame
    (address_of : Thumb.symbol -> Z) (debug : bool) (mem : Z -> Z)
    (k : exceptionType) (s : Thumb.cpu) (scb : SCB_Type) :
  Thumb.at_entry s ->
  distinct_addresses address_of ->
  let sp := if Z.testbit (Thumb.lr s) 2 then Thumb.psp s else Thumb.msp s in
  take_exception address_of debug mem k s
    = Some (fault_handler debug k (frame_at mem sp))
  /\ printed_with fmt_pc_psr
       (log_of (fault_handler true k (frame_at mem sp)) scb)
     = [[mem (sp + 24); mem (sp + 28)]].
Proof.
  intros Hentry Hinj sp. split.
  - unfold take_exception.
    rewrite vector_shape, (run_trampoline _ _ _ Hentry).
    rewrite (handler_at_own _ _ Hinj). reflexivity.
  - cbv [fault_handler when BKPT].
    destruct k; run_print; split_on_conditions; reflexivity.
Qed.

Lemma exception_reaches_handler_with_stacked_frame_witness :
  Thumb.at_entry sample_entry
  /\ take_exception sample_addresses true sample_memory Bus_Fault sample_entry
     = Some (fault_handler true Bus_Fault (frame_at sample_memory 0x20010000)).
Proof.
  split; [reflexivity |].
  apply (exception_reaches_handler_with_stacked_frame sample_addresses true
           sample_memory Bus_Fault sample_entry sample_scb
           (eq_refl : Thumb.at_entry sample_entry) sample_addresses_distinct).
Defined.
